(** * deej: the HTTP line source (pkg/deej/http.go)

    A shallow embedding of [HttpIO]: the POST /serial handler, the
    lifecycle methods ([NewHttpIO], [Start], [Stop], [close]), the
    subscriber registry, the delayed reload reset and [handleLine].

    Conventions.
    - A Go method with a pointer receiver is a function from the receiver's
      state to its new state, together with the effects it performs, in
      program order.
    - A channel is its identity ([chan]); the result of [make] is supplied
      by the caller of the embedding.
    - Closures and goroutine bodies are defunctionalised: a constructor
      carries the variables the closure captures.
    - A nil interface value is [None]; calling a method on it panics. *)

From Stdlib Require Import ZArith List String Ascii Bool Arith Lia.
Import ListNotations.

Local Open Scope string_scope.
Local Open Scope list_scope.

(** ** Values shared by the whole package *)

Definition chan := nat.

Inductive Level := LvlDebug | LvlInfo | LvlWarn.

(** The JSON values the handler hands to gin ([gin.H] is a string-keyed
    object; [fmt.Sprintf] yields a string). *)
Inductive JSON :=
| JString (s : string)
| JObject (fields : list (string * string)).

(** HTTP status codes of net/http used by the handler. *)
Definition StatusCreated : Z := 201.
Definition StatusBadRequest : Z := 400.

(** [SliderMoveEvent]: the slider's index and its reading.  The reading is
    kept as the integer the line carries. *)
Record SliderMoveEvent := {
  SliderID : nat;
  PercentValue : Z
}.

(** An [io.ReadWriteCloser] that is not nil: what [Close] returns is all the
    code looks at. *)
Record Conn := {
  conn_id : nat;
  close_error : option string
}.

(** [*Deej]: the fields reached from this file. *)
Record Deej := {
  configReloadedChannel : chan;   (* deej.config.SubscribeToChanges() *)
  tolerance : Z                   (* the change-detection tolerance *)
}.

Inductive Method := GET | POST | PUT | DELETE.

(** Closures of [Start], with the variable they capture. *)
Inductive Handler :=
| handleSerialCommand (lineChannel : chan).

Inductive Goroutine :=
| GoListener (lineChannel : chan)        (* http.go 70-77 *)
| GoControllerLoop (lineChannel : chan)  (* http.go 80-89 *)
| GoReloadWatcher (changes : chan)       (* http.go 118-130 *)
| GoDelayedReset (delay_ms : Z).         (* http.go 125-128 *)

Inductive Effect :=
| ELog (lvl : Level) (msg : string)
| EMakeChan (ch : chan)
| EGo (g : Goroutine)
| ESendStop (ch : chan) (v : bool)               (* stopChannel <- true *)
| ESendLine (ch : chan) (line : string)          (* lineChannel <- command *)
| ESendEvent (ch : chan) (ev : SliderMoveEvent)  (* consumer <- moveEvent *)
| EJSON (status : Z) (body : JSON)               (* c.JSON *)
| EIndentedJSON (status : Z) (body : JSON)       (* c.IndentedJSON *)
| EConnClose (c : Conn).                         (* conn.Close() *)

(** A call either returns or panics. *)
Inductive outcome (A : Type) :=
| Returned (a : A)
| Panicked (msg : string).
Arguments Returned {A} a.
Arguments Panicked {A} msg.

(** ** gin: the part of the router the listener uses *)

Module gin.

Record Route := {
  route_method : Method;
  route_path : string;
  route_handler : Handler
}.

Record Engine := {
  middleware : list string;
  routes : list Route
}.

(** [gin.Default()]: logger and recovery middleware, no route. *)
Definition Default : Engine :=
  {| middleware := ["Logger"; "Recovery"]; routes := [] |}.

Definition Handle (m : Method) (path : string) (h : Handler) (e : Engine) : Engine :=
  {| middleware := middleware e;
     routes := routes e ++ [ {| route_method := m; route_path := path; route_handler := h |} ] |}.

Definition Method_eqb (a b : Method) : bool :=
  match a, b with
  | GET, GET | POST, POST | PUT, PUT | DELETE, DELETE => true
  | _, _ => false
  end.

(** The handler registered for a method and a path, if any. *)
Fixpoint lookup (rs : list Route) (m : Method) (path : string) : option Handler :=
  match rs with
  | [] => None
  | r :: rs' =>
      if Method_eqb (route_method r) m && String.eqb (route_path r) path
      then Some (route_handler r)
      else lookup rs' m path
  end.

(** What [GetRawData] returns: the bytes read and the read error. *)
Record RawData := {
  data : string;
  err : option string
}.




End gin.

(** ** The line format *)

Module Line.

Definition CR : ascii := ascii_of_nat 13.
Definition LF : ascii := ascii_of_nat 10.
Definition CRLF : string := String CR (String LF EmptyString).
Definition separator : ascii := "|"%char.

(** [strings.TrimSuffix line CRLF]. *)
Fixpoint trim_terminator (s : string) : string :=
  match s with
  | EmptyString => EmptyString
  | String c s' => if String.eqb s CRLF then EmptyString else String c (trim_terminator s')
  end.

(** [strings.Split]: the empty string has one (empty) field. *)
Fixpoint split_on (sep : ascii) (s : string) : list string :=
  match s with
  | EmptyString => [EmptyString]
  | String c s' =>
      if Ascii.eqb c sep then EmptyString :: split_on sep s'
      else match split_on sep s' with
           | [] => [String c EmptyString]
           | f :: fs => String c f :: fs
           end
  end.

Definition digit_of (c : ascii) : option Z :=
  let n := Z.of_nat (nat_of_ascii c) in
  if (48 <=? n)%Z && (n <=? 57)%Z then Some (n - 48)%Z else None.

Fixpoint parse_digits (acc : Z) (s : string) : option Z :=
  match s with
  | EmptyString => Some acc
  | String c s' =>
      match digit_of c with
      | Some d => parse_digits (10 * acc + d)%Z s'
      | None => None
      end
  end.

(** A field is a non-negative number: one decimal digit at least. *)
Definition parse_number (s : string) : option Z :=
  match s with
  | EmptyString => None
  | _ => parse_digits 0 s
  end.

Fixpoint parse_fields (fs : list string) : option (list Z) :=
  match fs with
  | [] => Some []
  | f :: fs' =>
      match parse_number f, parse_fields fs' with
      | Some v, Some vs => Some (v :: vs)
      | _, _ => None
      end
  end.

(** Modelled from the spec: the parser of [SerialIO.handleLine] (serial.go
    is not among the sources).  The line is parsed into N numeric fields;
    parsing fails ([None], the spec's MalformedLineError) if a field is not
    numeric or the line is empty. *)
Definition parse (line : string) : option (list Z) :=
  parse_fields (split_on separator (trim_terminator line)).

End Line.

(** ** SerialIO *)

Module SerialIO.

(** Modelled from the spec: the struct [SerialIO] (serial.go is not among
    the sources).  The first six fields are the ones the composite literal
    of [HttpIO.handleLine] names; the two others are the slider state the
    spec gives the tracker (recorded slider count, stored percentages). *)
Record t := {
  deej : Deej;
  logger : string;
  stopChannel : chan;
  connected : bool;
  conn : option Conn;
  lastKnownNumSliders : Z;
  currentSliderPercentValues : list Z;
  sliderMoveConsumers : list chan
}.

Definition event (i : nat) (v : Z) : SliderMoveEvent :=
  {| SliderID := i; PercentValue := v |}.

(** Every slider of the line, from index [i] on, as a change. *)
Fixpoint all_changed (i : nat) (vals : list Z) : list SliderMoveEvent :=
  match vals with
  | [] => []
  | v :: vals' => event i v :: all_changed (S i) vals'
  end.

(** The sliders whose reading moved by more than the tolerance, by
    ascending index; an index without a stored value counts as changed. *)
Fixpoint changed_from (tol : Z) (i : nat) (old vals : list Z) : list SliderMoveEvent :=
  match vals with
  | [] => []
  | v :: vals' =>
      match old with
      | [] => event i v :: changed_from tol (S i) [] vals'
      | o :: old' =>
          if (tol <? Z.abs (v - o))%Z
          then event i v :: changed_from tol (S i) old' vals'
          else changed_from tol (S i) old' vals'
      end
  end.

(** Modelled from the spec: [Diff] of the SliderStateTracker (serial.go is
    not among the sources).  If the number of fields differs from the
    recorded slider count every slider is a change; otherwise the sliders
    beyond the tolerance are.  The latest readings are stored either way. *)
Definition Diff (sio : t) (vals : list Z) : t * list SliderMoveEvent :=
  let n := Z.of_nat (List.length vals) in
  let events :=
    if (n =? lastKnownNumSliders sio)%Z
    then changed_from (tolerance (deej sio)) 0 (currentSliderPercentValues sio) vals
    else all_changed 0 vals in
  ({| deej := deej sio; logger := logger sio; stopChannel := stopChannel sio;
      connected := connected sio; conn := conn sio;
      lastKnownNumSliders := n;
      currentSliderPercentValues := vals;
      sliderMoveConsumers := sliderMoveConsumers sio |},
   events).

(** Modelled from the spec: [Publish] of the EventDispatcher: every event
    goes to every registered channel. *)
Definition Publish (consumers : list chan) (events : list SliderMoveEvent) : list Effect :=
  flat_map (fun ev => map (fun ch => ESendEvent ch ev) consumers) events.

(** Modelled from the spec: [SerialIO.handleLine] (serial.go is not among
    the sources): parse, diff against the receiver's slider state,
    publish.  A malformed line is logged and dropped. *)
Definition handleLine (sio : t) (line : string)
  : t * list SliderMoveEvent * list Effect :=
  match Line.parse line with
  | None => (sio, [], [ELog LvlDebug "Got malformed line, ignoring"])
  | Some vals =>
      let (sio', events) := Diff sio vals in
      (sio', events, Publish (sliderMoveConsumers sio') events)
  end.

End SerialIO.

(** ** HttpIO *)

Module HttpIO.

(** The struct of http.go 14-28.  The embedded [SerialIO] value is left
    out: every selector [hio.x] of this file resolves to the outer field
    of that name, and nothing reads or writes the embedded one. *)
Record t := {
  deej : Deej;
  logger : string;
  stopChannel : chan;
  connected : bool;
  conn : option Conn;
  lastKnownNumSliders : Z;
  currentSliderPercentValues : list Z;
  sliderMoveConsumers : list chan
}.

Definition set_lastKnownNumSliders (n : Z) (hio : t) : t :=
  {| deej := deej hio; logger := logger hio; stopChannel := stopChannel hio;
     connected := connected hio; conn := conn hio;
     lastKnownNumSliders := n;
     currentSliderPercentValues := currentSliderPercentValues hio;
     sliderMoveConsumers := sliderMoveConsumers hio |}.

Definition set_sliderMoveConsumers (cs : list chan) (hio : t) : t :=
  {| deej := deej hio; logger := logger hio; stopChannel := stopChannel hio;
     connected := connected hio; conn := conn hio;
     lastKnownNumSliders := lastKnownNumSliders hio;
     currentSliderPercentValues := currentSliderPercentValues hio;
     sliderMoveConsumers := cs |}.

Definition set_conn (c : option Conn) (hio : t) : t :=
  {| deej := deej hio; logger := logger hio; stopChannel := stopChannel hio;
     connected := connected hio; conn := c;
     lastKnownNumSliders := lastKnownNumSliders hio;
     currentSliderPercentValues := currentSliderPercentValues hio;
     sliderMoveConsumers := sliderMoveConsumers hio |}.

Definition set_connected (b : bool) (hio : t) : t :=
  {| deej := deej hio; logger := logger hio; stopChannel := stopChannel hio;
     connected := b; conn := conn hio;
     lastKnownNumSliders := lastKnownNumSliders hio;
     currentSliderPercentValues := currentSliderPercentValues hio;
     sliderMoveConsumers := sliderMoveConsumers hio |}.

(** [logger.Named]: zap joins the segments of a name with a period. *)
Definition Named (logger name : string) : string :=
  match logger with
  | EmptyString => name
  | _ => (logger ++ "." ++ name)%string
  end.

(** http.go 113-131: the watcher goroutine is started; each notification
    it receives starts one delayed reset ([on_config_reloaded]). *)
Definition stopDelay : Z := 50.   (* milliseconds *)

Definition setupOnConfigReload (hio : t) : list Effect :=
  [EGo (GoReloadWatcher (configReloadedChannel (deej hio)))].

Definition on_config_reloaded : list Effect :=
  [EGo (GoDelayedReset stopDelay)].

(** http.go 127: what the delayed goroutine does once the timer fired. *)
Definition delayed_reset (hio : t) : t :=
  set_lastKnownNumSliders 0 hio.

(** http.go 36-54.  [stopCh] is the channel [make(chan bool)] returns. *)
Definition NewHttpIO (d : Deej) (logger : string) (stopCh : chan)
  : t * option string * list Effect :=
  let logger := Named logger "http" in
  let hio := {| deej := d; logger := logger; stopChannel := stopCh;
                connected := false; conn := None;
                lastKnownNumSliders := 0;
                currentSliderPercentValues := [];
                sliderMoveConsumers := [] |} in
  (hio, None,
   [EMakeChan stopCh; ELog LvlDebug "Created HTTP i/o instance"]
     ++ setupOnConfigReload hio).

(** http.go 60-68, the closure [handleSerialCommand]. *)
Definition serve (h : Handler) (raw : gin.RawData) : list Effect :=
  match h with
  | handleSerialCommand lineChannel =>
      let on_error :=
        match gin.err raw with
        | Some _ => [EJSON StatusBadRequest (JObject [("error", "invalid data")])]
        | None => []
        end in
      let command := gin.data raw in
      on_error
        ++ [ESendLine lineChannel command;
            EIndentedJSON StatusCreated
              (JString ("Accepted serial command " ++ command)%string)]
  end.

(** http.go 95-102. *)
Definition Stop (hio : t) : t * list Effect :=
  if connected hio
  then (hio, [ELog LvlDebug "Shutting down Http connection";
              ESendStop (stopChannel hio) true])
  else (hio, [ELog LvlDebug "Not currently connected, nothing to stop"]).

(** http.go 70-77, the listener goroutine: the router it builds, the
    address it runs it on, and what it does when [Run] returns. *)
Definition listener_router (lineChannel : chan) : gin.Engine :=
  gin.Handle POST "/serial" (handleSerialCommand lineChannel) gin.Default.

Definition listener_addr : string := "localhost:6332".

Definition listener_start : list Effect :=
  [ELog LvlInfo "Starting server at localhost:6332/serial"].

Definition listener_exit (run_err : option string) (hio : t) : t * list Effect :=
  match run_err with
  | Some _ => Stop hio
  | None => (hio, [])
  end.

(** http.go 57-92.  [lineChannel] is the channel [make(chan string)]
    returns. *)
Definition Start (hio : t) (lineChannel : chan) : t * option string * list Effect :=
  (hio, None,
   [EMakeChan lineChannel;
    EGo (GoListener lineChannel);
    EGo (GoControllerLoop lineChannel)]).

(** http.go 106-111.  [ch] is the channel [make(chan SliderMoveEvent)]
    returns. *)
Definition SubscribeToSliderMoveEvents (hio : t) (ch : chan) : t * chan * list Effect :=
  (set_sliderMoveConsumers (sliderMoveConsumers hio ++ [ch]) hio, ch, [EMakeChan ch]).

(** http.go 133-142.  [hio.conn.Close()] on a nil interface panics. *)
Definition close (hio : t) : outcome (t * list Effect) :=
  match conn hio with
  | None => Panicked "invalid memory address or nil pointer dereference"
  | Some c =>
      let logged :=
        match close_error c with
        | Some _ => ELog LvlWarn "Failed to close HTTP connection"
        | None => ELog LvlDebug "HTTP connection closed"
        end in
      Returned (set_connected false (set_conn None hio), [EConnClose c; logged])
  end.

(** http.go 144-154.  The [SerialIO] is a fresh value: the fields the
    literal does not name ([lastKnownNumSliders],
    [currentSliderPercentValues]) are zero, and the value is dropped when
    the call returns. *)
Definition fresh_SerialIO (hio : t) : SerialIO.t :=
  {| SerialIO.deej := deej hio;
     SerialIO.logger := logger hio;
     SerialIO.stopChannel := stopChannel hio;
     SerialIO.connected := connected hio;
     SerialIO.conn := conn hio;
     SerialIO.lastKnownNumSliders := 0;
     SerialIO.currentSliderPercentValues := [];
     SerialIO.sliderMoveConsumers := sliderMoveConsumers hio |}.

Definition handleLine (hio : t) (line : string)
  : t * list SliderMoveEvent * list Effect :=
  let sio := fresh_SerialIO hio in
  let '(_, events, effects) := SerialIO.handleLine sio (line ++ Line.CRLF)%string in
  (hio, events, effects).

End HttpIO.

(** ** The running bridge

    The goroutines of http.go run concurrently; a run of the whole is a
    sequence of events, each the atomic step of one goroutine or the return
    of one call.  What a call starts, sends or closes is read off the
    effects it returns ([perform]).  An event that is not enabled leaves
    the world as it is.  Time is in milliseconds. *)

Module Bridge.

Record World := {
  hio : HttpIO.t;
  trace : list Effect;        (* every effect so far, oldest first *)
  next_chan : chan;           (* the next channel [make] returns *)
  watchers : list chan;       (* reload watchers, by the channel they range over *)
  starting : list chan;       (* listener goroutines not yet in [router.Run] *)
  listeners : list chan;      (* listener goroutines inside [router.Run] *)
  loops : list chan;          (* controller loops, by their lineChannel *)
  stop_senders : nat;         (* callers blocked in [stopChannel <- true] *)
  teardowns : nat;            (* calls of [conn.Close()] made by [close] *)
  now : Z;
  timers : list Z;            (* due times of the delayed resets pending *)
  resets_spawned : nat;
  resets_fired : nat;
  panicked : bool
}.

Inductive Event :=
| CallStart
| CallStop
| CallSubscribe
| ListenerRuns (lineChannel : chan)   (* a listener goroutine logs and enters [router.Run] *)
| RunFails (lineChannel : chan) (err : string)
                                      (* that listener's [router.Run] returns [err] *)
| LoopReceivesStop                    (* select: [case <-hio.stopChannel] *)
| LoopReceivesLine (line : string)    (* select: [case line := <-lineChannel] *)
| ConfigReloaded                      (* a watcher receives a notification *)
| Elapse (ms : Z).                    (* time passes; due timers fire *)

Definition with_hio (h : HttpIO.t) (effs : list Effect) (w : World) : World :=
  {| hio := h; trace := trace w ++ effs; next_chan := next_chan w;
     watchers := watchers w; starting := starting w;
     listeners := listeners w; loops := loops w;
     stop_senders := stop_senders w; teardowns := teardowns w;
     now := now w; timers := timers w;
     resets_spawned := resets_spawned w; resets_fired := resets_fired w;
     panicked := panicked w |}.

Definition set_hio (h : HttpIO.t) (w : World) : World :=
  {| hio := h; trace := trace w; next_chan := next_chan w;
     watchers := watchers w; starting := starting w;
     listeners := listeners w; loops := loops w;
     stop_senders := stop_senders w; teardowns := teardowns w;
     now := now w; timers := timers w;
     resets_spawned := resets_spawned w; resets_fired := resets_fired w;
     panicked := panicked w |}.

Definition is_send_stop (e : Effect) : bool :=
  match e with ESendStop _ _ => true | _ => false end.

Definition is_conn_close (e : Effect) : bool :=
  match e with EConnClose _ => true | _ => false end.

Definition count (p : Effect -> bool) (effs : list Effect) : nat :=
  List.length (filter p effs).

(** What one effect does to the world besides being recorded: [make]
    uses up a channel, [go] starts a goroutine, a send on the stop channel
    leaves its sender waiting, [Close] is a teardown. *)
Definition took_effect (e : Effect) (w : World) : World :=
  match e with
  | EMakeChan ch =>
      {| hio := hio w; trace := trace w; next_chan := S ch;
         watchers := watchers w; starting := starting w;
         listeners := listeners w; loops := loops w;
         stop_senders := stop_senders w; teardowns := teardowns w;
         now := now w; timers := timers w;
         resets_spawned := resets_spawned w; resets_fired := resets_fired w;
         panicked := panicked w |}
  | EGo (GoReloadWatcher changes) =>
      {| hio := hio w; trace := trace w; next_chan := next_chan w;
         watchers := watchers w ++ [changes]; starting := starting w;
         listeners := listeners w; loops := loops w;
         stop_senders := stop_senders w; teardowns := teardowns w;
         now := now w; timers := timers w;
         resets_spawned := resets_spawned w; resets_fired := resets_fired w;
         panicked := panicked w |}
  | EGo (GoListener lineChannel) =>
      {| hio := hio w; trace := trace w; next_chan := next_chan w;
         watchers := watchers w; starting := starting w ++ [lineChannel];
         listeners := listeners w; loops := loops w;
         stop_senders := stop_senders w; teardowns := teardowns w;
         now := now w; timers := timers w;
         resets_spawned := resets_spawned w; resets_fired := resets_fired w;
         panicked := panicked w |}
  | EGo (GoControllerLoop lineChannel) =>
      {| hio := hio w; trace := trace w; next_chan := next_chan w;
         watchers := watchers w; starting := starting w;
         listeners := listeners w; loops := loops w ++ [lineChannel];
         stop_senders := stop_senders w; teardowns := teardowns w;
         now := now w; timers := timers w;
         resets_spawned := resets_spawned w; resets_fired := resets_fired w;
         panicked := panicked w |}
  | EGo (GoDelayedReset delay) =>
      {| hio := hio w; trace := trace w; next_chan := next_chan w;
         watchers := watchers w; starting := starting w;
         listeners := listeners w; loops := loops w;
         stop_senders := stop_senders w; teardowns := teardowns w;
         now := now w; timers := timers w ++ [(now w + delay)%Z];
         resets_spawned := S (resets_spawned w); resets_fired := resets_fired w;
         panicked := panicked w |}
  | ESendStop _ _ =>
      {| hio := hio w; trace := trace w; next_chan := next_chan w;
         watchers := watchers w; starting := starting w;
         listeners := listeners w; loops := loops w;
         stop_senders := S (stop_senders w); teardowns := teardowns w;
         now := now w; timers := timers w;
         resets_spawned := resets_spawned w; resets_fired := resets_fired w;
         panicked := panicked w |}
  | EConnClose _ =>
      {| hio := hio w; trace := trace w; next_chan := next_chan w;
         watchers := watchers w; starting := starting w;
         listeners := listeners w; loops := loops w;
         stop_senders := stop_senders w; teardowns := S (teardowns w);
         now := now w; timers := timers w;
         resets_spawned := resets_spawned w; resets_fired := resets_fired w;
         panicked := panicked w |}
  | ELog _ _ | ESendLine _ _ | ESendEvent _ _ | EJSON _ _ | EIndentedJSON _ _ => w
  end.

(** The effects of a call, recorded in the trace and carried out in
    program order. *)
Definition perform (effs : list Effect) (w : World) : World :=
  fold_left (fun w' e => took_effect e w') effs (with_hio (hio w) effs w).

(** [NewHttpIO], then nothing started yet but what [NewHttpIO] starts. *)
Definition boot (d : Deej) (logger : string) : World :=
  let stopCh := S (configReloadedChannel d) in
  let '(h, _, effs) := HttpIO.NewHttpIO d logger stopCh in
  perform effs
    {| hio := h; trace := []; next_chan := stopCh;
       watchers := []; starting := []; listeners := []; loops := [];
       stop_senders := 0; teardowns := 0;
       now := 0; timers := [];
       resets_spawned := 0; resets_fired := 0;
       panicked := false |}.

(** A call of [hio.Stop()]: a send on the stop channel blocks its caller
    until a controller loop receives. *)
Definition do_Stop (w : World) : World :=
  let (h, effs) := HttpIO.Stop (hio w) in
  perform effs (set_hio h w).

Definition do_Start (w : World) : World :=
  let '(h, _, effs) := HttpIO.Start (hio w) (next_chan w) in
  perform effs (set_hio h w).

Definition do_Subscribe (w : World) : World :=
  let '(h, _, effs) := HttpIO.SubscribeToSliderMoveEvents (hio w) (next_chan w) in
  perform effs (set_hio h w).

Fixpoint remove_first (ch : chan) (l : list chan) : list chan :=
  match l with
  | [] => []
  | x :: l' => if Nat.eqb x ch then l' else x :: remove_first ch l'
  end.

Definition set_listeners (st ls : list chan) (w : World) : World :=
  {| hio := hio w; trace := trace w; next_chan := next_chan w;
     watchers := watchers w; starting := st;
     listeners := ls; loops := loops w;
     stop_senders := stop_senders w; teardowns := teardowns w;
     now := now w; timers := timers w;
     resets_spawned := resets_spawned w; resets_fired := resets_fired w;
     panicked := panicked w |}.

(** The listener goroutine of [lineChannel] runs up to [router.Run]
    (http.go 71-74): enabled while it has not done so yet. *)
Definition do_ListenerRuns (lineChannel : chan) (w : World) : World :=
  if existsb (Nat.eqb lineChannel) (starting w)
  then perform HttpIO.listener_start
         (set_listeners (remove_first lineChannel (starting w))
                        (listeners w ++ [lineChannel]) w)
  else w.

(** [router.Run] of the listener of [lineChannel] returns [err]: the
    goroutine calls [hio.Stop()] and ends (http.go 74-76).  Enabled while
    that listener is inside [router.Run]. *)
Definition do_RunFails (lineChannel : chan) (err : string) (w : World) : World :=
  if existsb (Nat.eqb lineChannel) (listeners w)
  then let (h, effs) := HttpIO.listener_exit (Some err) (hio w) in
       perform effs
         (set_listeners (starting w) (remove_first lineChannel (listeners w))
                        (set_hio h w))
  else w.

Definition received_stop (waiting : nat) (crashed : bool) (w : World) : World :=
  {| hio := hio w; trace := trace w; next_chan := next_chan w;
     watchers := watchers w; starting := starting w;
     listeners := listeners w; loops := loops w;
     stop_senders := waiting; teardowns := teardowns w;
     now := now w; timers := timers w;
     resets_spawned := resets_spawned w; resets_fired := resets_fired w;
     panicked := crashed |}.

(** A controller loop takes the stop branch: enabled when a loop runs and
    a sender waits on the stop channel.  The loop calls [close]; a panic
    there ends the process. *)
Definition do_LoopReceivesStop (w : World) : World :=
  match loops w, stop_senders w with
  | _ :: _, S waiting =>
      match HttpIO.close (hio w) with
      | Returned (h, effs) =>
          perform effs (set_hio h (received_stop waiting (panicked w) w))
      | Panicked _ => received_stop waiting true w
      end
  | _, _ => w
  end.

(** A controller loop takes the line branch: enabled when a loop runs. *)
Definition do_LoopReceivesLine (line : string) (w : World) : World :=
  match loops w with
  | [] => w
  | _ :: _ =>
      let '(h, _, effs) := HttpIO.handleLine (hio w) line in
      perform effs (set_hio h w)
  end.

(** A watcher receives a notification and starts a delayed reset (http.go
    119-129): enabled when a watcher runs. *)
Definition do_ConfigReloaded (w : World) : World :=
  match watchers w with
  | [] => w
  | _ :: _ => perform HttpIO.on_config_reloaded w
  end.

(** The timers due at [t] fire, each running [HttpIO.delayed_reset]. *)
Fixpoint fire_due (t : Z) (ts : list Z) (h : HttpIO.t) : list Z * HttpIO.t * nat :=
  match ts with
  | [] => ([], h, 0)
  | due :: ts' =>
      if (due <=? t)%Z
      then let '(rest, h', n) := fire_due t ts' (HttpIO.delayed_reset h) in
           (rest, h', S n)
      else let '(rest, h', n) := fire_due t ts' h in
           (due :: rest, h', n)
  end.

Definition do_Elapse (ms : Z) (w : World) : World :=
  let t := (now w + Z.max 0 ms)%Z in
  let '(rest, h, n) := fire_due t (timers w) (hio w) in
  {| hio := h; trace := trace w; next_chan := next_chan w;
     watchers := watchers w; starting := starting w;
     listeners := listeners w; loops := loops w;
     stop_senders := stop_senders w; teardowns := teardowns w;
     now := t; timers := rest;
     resets_spawned := resets_spawned w; resets_fired := resets_fired w + n;
     panicked := panicked w |}.

(** After a panic the process is gone. *)
Definition step (w : World) (ev : Event) : World :=
  if panicked w then w else
  match ev with
  | CallStart => do_Start w
  | CallStop => do_Stop w
  | CallSubscribe => do_Subscribe w
  | ListenerRuns lineChannel => do_ListenerRuns lineChannel w
  | RunFails lineChannel err => do_RunFails lineChannel err w
  | LoopReceivesStop => do_LoopReceivesStop w
  | LoopReceivesLine line => do_LoopReceivesLine line w
  | ConfigReloaded => do_ConfigReloaded w
  | Elapse ms => do_Elapse ms w
  end.

Definition run (evs : list Event) (w : World) : World :=
  fold_left step evs w.



End Bridge.

(** ** The line channel

    One [Start]: any number of request goroutines running
    [handleSerialCommand], and the controller loop.  A request goroutine is
    the effects it still has to perform, as [HttpIO.serve] lists them.  The
    channel is unbuffered: a send and the loop's receive happen together,
    and only while the loop is at its [select]. *)

Module Pipeline.

Inductive LoopPC :=
| AtSelect
| InHandleLine (line : string).

Inductive Obs :=
| Enter (line : string)         (* [hio.handleLine] is called *)
| Leave (line : string).        (* it returns *)

Record Sys := {
  hio : HttpIO.t;
  lineChannel : chan;
  requests : list (list Effect);
  loop : LoopPC;
  sent : list string;           (* commands handed over the channel *)
  observed : list Obs;
  responses : list (nat * Effect)
}.

Inductive Action :=
| Arrive (raw : gin.RawData)    (* gin starts the handler of a request *)
| Advance (i : nat)             (* request [i] performs its next effect *)
| Return.                       (* [handleLine] returns to the loop *)

Definition init (h : HttpIO.t) (ch : chan) : Sys :=
  {| hio := h; lineChannel := ch; requests := []; loop := AtSelect;
     sent := []; observed := []; responses := [] |}.

Fixpoint update {A} (i : nat) (x : A) (l : list A) : list A :=
  match l, i with
  | [], _ => []
  | _ :: l', O => x :: l'
  | y :: l', S i' => y :: update i' x l'
  end.

Definition step (s : Sys) (a : Action) : Sys :=
  match a with
  | Arrive raw =>
      {| hio := hio s; lineChannel := lineChannel s;
         requests := requests s
                       ++ [HttpIO.serve (handleSerialCommand (lineChannel s)) raw];
         loop := loop s; sent := sent s; observed := observed s;
         responses := responses s |}
  | Advance i =>
      match nth_error (requests s) i with
      | Some (ESendLine ch command :: rest) =>
          match loop s with
          | AtSelect =>
              if Nat.eqb ch (lineChannel s)
              then {| hio := hio s; lineChannel := lineChannel s;
                      requests := update i rest (requests s);
                      loop := InHandleLine command;
                      sent := sent s ++ [command];
                      observed := observed s ++ [Enter command];
                      responses := responses s |}
              else s
          | InHandleLine _ => s
          end
      | Some (e :: rest) =>
          {| hio := hio s; lineChannel := lineChannel s;
             requests := update i rest (requests s);
             loop := loop s; sent := sent s; observed := observed s;
             responses := responses s ++ [(i, e)] |}
      | _ => s
      end
  | Return =>
      match loop s with
      | InHandleLine line =>
          let '(h, _, _) := HttpIO.handleLine (hio s) line in
          {| hio := h; lineChannel := lineChannel s;
             requests := requests s; loop := AtSelect;
             sent := sent s; observed := observed s ++ [Leave line];
             responses := responses s |}
      | AtSelect => s
      end
  end.

Definition run (acts : list Action) (s : Sys) : Sys :=
  fold_left step acts s.

(** Reading a log of calls and returns of [handleLine]: [Some o] when no
    call starts inside another, [o] being the call still open. *)
Fixpoint track (open : option string) (os : list Obs) : option (option string) :=
  match os with
  | [] => Some open
  | Enter line :: os' =>
      match open with
      | None => track (Some line) os'
      | Some _ => None
      end
  | Leave line :: os' =>
      match open with
      | Some line' => if String.eqb line line' then track None os' else None
      | None => None
      end
  end.

Definition no_overlap (os : list Obs) : bool :=
  match track None os with Some _ => true | None => false end.

Fixpoint entered (os : list Obs) : list string :=
  match os with
  | [] => []
  | Enter line :: os' => line :: entered os'
  | Leave _ :: os' => entered os'
  end.

Definition open_call (pc : LoopPC) : option string :=
  match pc with
  | AtSelect => None
  | InHandleLine line => Some line
  end.

End Pipeline.

(** ** Invariants of the running bridge *)

(** Nobody is connected, nobody waits on the stop channel, the process
    lives. *)
Definition Calm (w : Bridge.World) : Prop :=
  HttpIO.connected (Bridge.hio w) = false
  /\ Bridge.stop_senders w = 0
  /\ Bridge.panicked w = false.

(** No transport handle, no teardown made, no send on the stop channel. *)
Definition Untouched (w : Bridge.World) : Prop :=
  HttpIO.conn (Bridge.hio w) = None
  /\ Bridge.teardowns w = 0
  /\ Bridge.count Bridge.is_send_stop (Bridge.trace w) = 0
  /\ Bridge.count Bridge.is_conn_close (Bridge.trace w) = 0.

Definition sample_deej : Deej :=
  {| configReloadedChannel := 0; tolerance := 1 |}.

(** The effects that change nothing in the world but its trace. *)
Definition inert (e : Effect) : bool :=
  match e with
  | ELog _ _ | ESendLine _ _ | ESendEvent _ _ | EJSON _ _ | EIndentedJSON _ _ => true
  | _ => false
  end.






(** The receiver [NewHttpIO] returns, and a line of three sliders. *)
Definition sample_hio : HttpIO.t :=
  fst (fst (HttpIO.NewHttpIO sample_deej "deej" 1)).

Definition sample_line : string := "100|50|0".

(** The log agrees with the loop: a call is open exactly while the loop is
    inside [handleLine], and the calls made are the commands sent. *)
Definition in_step (s : Pipeline.Sys) : Prop :=
  Pipeline.track None (Pipeline.observed s) = Some (Pipeline.open_call (Pipeline.loop s))
  /\ Pipeline.entered (Pipeline.observed s) = Pipeline.sent s.

(** ** Vocabulary for the remaining properties *)

Definition is_subscribe (ev : Bridge.Event) : bool :=
  match ev with Bridge.CallSubscribe => true | _ => false end.

Definition is_start (ev : Bridge.Event) : bool :=
  match ev with Bridge.CallStart => true | _ => false end.

(** The receiver with another slider state. *)
Definition with_slider_state (n : Z) (vals : list Z) (h : HttpIO.t) : HttpIO.t :=
  {| HttpIO.deej := HttpIO.deej h; HttpIO.logger := HttpIO.logger h;
     HttpIO.stopChannel := HttpIO.stopChannel h;
     HttpIO.connected := HttpIO.connected h; HttpIO.conn := HttpIO.conn h;
     HttpIO.lastKnownNumSliders := n;
     HttpIO.currentSliderPercentValues := vals;
     HttpIO.sliderMoveConsumers := HttpIO.sliderMoveConsumers h |}.

(** The channels [make] handed out are told apart: the subscribers' and the
    line channels are pairwise different, and all were made after the stop
    channel. *)
Definition channels_fresh (w : Bridge.World) : Prop :=
  HttpIO.stopChannel (Bridge.hio w) < Bridge.next_chan w
  /\ Forall (fun c => HttpIO.stopChannel (Bridge.hio w) < c < Bridge.next_chan w)
            (HttpIO.sliderMoveConsumers (Bridge.hio w) ++ Bridge.loops w)
  /\ NoDup (HttpIO.sliderMoveConsumers (Bridge.hio w) ++ Bridge.loops w).

(** A bridge that holds a transport handle and is marked connected, with
    one controller loop running: the state the stop path is written for. *)
Definition sample_conn : Conn :=
  {| conn_id := 7; close_error := None |}.

Definition sample_connected_world : Bridge.World :=
  let w := Bridge.run [Bridge.CallStart] (Bridge.boot sample_deej "deej") in
  Bridge.with_hio
    (HttpIO.set_connected true (HttpIO.set_conn (Some sample_conn) (Bridge.hio w)))
    [] w.













Definition is_return (a : Pipeline.Action) : bool :=
  match a with Pipeline.Return => true | _ => false end.

(** Two requests, the first of which was taken by the loop. *)
Definition sample_busy_pipeline : Pipeline.Sys :=
  Pipeline.run
    [Pipeline.Arrive {| gin.data := "100|50|0"; gin.err := None |};
     Pipeline.Arrive {| gin.data := "100|52|0"; gin.err := None |};
     Pipeline.Advance 0]
    (Pipeline.init sample_hio 2).

(** * Properties *)

(** ** The request handler *)

Section Handler.

Variable lineChannel : chan.

(** C6.  A request whose body was read (no error): the whole body goes
    over the line channel as one command, once, and the only response is
    201 Created with the acknowledgement that repeats the command. *)
Theorem readable_body_is_forwarded_and_acknowledged :
  forall body : string,
    HttpIO.serve (handleSerialCommand lineChannel) {| gin.data := body; gin.err := None |}
    = [ESendLine lineChannel body;
       EIndentedJSON StatusCreated
         (JString ("Accepted serial command " ++ body)%string)].
Proof.
  intro body. unfold HttpIO.serve. simpl. reflexivity.
Qed.

(** C1, as the code runs.  A request whose body could not be read: the
    400 with the error object is written, and the handler goes on: what
    was read is sent over the line channel and the 201 call follows. *)
Theorem unreadable_body_is_still_forwarded :
  forall (partial e : string),
    HttpIO.serve (handleSerialCommand lineChannel) {| gin.data := partial; gin.err := Some e |}
    = [EJSON StatusBadRequest (JObject [("error", "invalid data")]);
       ESendLine lineChannel partial;
       EIndentedJSON StatusCreated
         (JString ("Accepted serial command " ++ partial)%string)].
Proof.
  intros partial e. unfold HttpIO.serve. simpl. reflexivity.
Qed.

End Handler.

(** ** The listener *)

(** C8.  The listener runs on localhost:6332; its router has one route,
    POST /serial, bound to [handleSerialCommand]; every other method or
    path finds no handler; [Start] starts one listener. *)
Theorem listener_has_the_single_route_POST_serial :
  forall (hio : HttpIO.t) (lineChannel : chan),
    HttpIO.listener_addr = "localhost:6332"
    /\ gin.routes (HttpIO.listener_router lineChannel)
       = [ {| gin.route_method := POST;
              gin.route_path := "/serial";
              gin.route_handler := handleSerialCommand lineChannel |} ]
    /\ (forall m path,
          gin.lookup (gin.routes (HttpIO.listener_router lineChannel)) m path
          = if gin.Method_eqb m POST && String.eqb path "/serial"
            then Some (handleSerialCommand lineChannel)
            else None)
    /\ filter (fun e => match e with EGo (GoListener _) => true | _ => false end)
              (snd (HttpIO.Start hio lineChannel))
       = [EGo (GoListener lineChannel)].
Proof.
  intros hio lineChannel. repeat split.
  intros m path. unfold HttpIO.listener_router.
  destruct m; cbn -[String.eqb]; try reflexivity.
  rewrite (String.eqb_sym "/serial" path).
  destruct (String.eqb path "/serial"); reflexivity.
Qed.

(** ** Stop *)

(** C7.  [Stop] on a bridge that is not connected: the receiver is
    returned as it was, and the one effect is the debug log line; in the
    running bridge no sender is left on the stop channel and no teardown
    is made. *)
Theorem Stop_when_not_connected_only_logs :
  forall w : Bridge.World,
    HttpIO.connected (Bridge.hio w) = false ->
    Bridge.panicked w = false ->
    HttpIO.Stop (Bridge.hio w)
    = (Bridge.hio w, [ELog LvlDebug "Not currently connected, nothing to stop"])
    /\ Bridge.hio (Bridge.step w Bridge.CallStop) = Bridge.hio w
    /\ Bridge.stop_senders (Bridge.step w Bridge.CallStop) = Bridge.stop_senders w
    /\ Bridge.teardowns (Bridge.step w Bridge.CallStop) = Bridge.teardowns w
    /\ Bridge.trace (Bridge.step w Bridge.CallStop)
       = Bridge.trace w ++ [ELog LvlDebug "Not currently connected, nothing to stop"].
Proof.
  intros w Hc Hp.
  unfold Bridge.step, Bridge.do_Stop, HttpIO.Stop. rewrite Hp, Hc. cbn.
  repeat split.
Qed.

(** ** The delayed reset *)

(** C10.  The delayed reset writes [lastKnownNumSliders] and nothing
    else. *)
Theorem delayed_reset_writes_only_lastKnownNumSliders :
  forall hio : HttpIO.t,
    HttpIO.lastKnownNumSliders (HttpIO.delayed_reset hio) = 0%Z
    /\ HttpIO.currentSliderPercentValues (HttpIO.delayed_reset hio)
       = HttpIO.currentSliderPercentValues hio
    /\ HttpIO.sliderMoveConsumers (HttpIO.delayed_reset hio)
       = HttpIO.sliderMoveConsumers hio
    /\ HttpIO.connected (HttpIO.delayed_reset hio) = HttpIO.connected hio
    /\ HttpIO.conn (HttpIO.delayed_reset hio) = HttpIO.conn hio
    /\ HttpIO.stopChannel (HttpIO.delayed_reset hio) = HttpIO.stopChannel hio
    /\ HttpIO.deej (HttpIO.delayed_reset hio) = HttpIO.deej hio
    /\ HttpIO.logger (HttpIO.delayed_reset hio) = HttpIO.logger hio.
Proof.
  intro hio. unfold HttpIO.delayed_reset, HttpIO.set_lastKnownNumSliders. simpl.
  repeat split.
Qed.

(** ** The running bridge: what every step keeps *)

Lemma delayed_reset_idempotent :
  forall h, HttpIO.delayed_reset (HttpIO.delayed_reset h) = HttpIO.delayed_reset h.
Proof. intro h. reflexivity. Qed.

Lemma handleLine_keeps_receiver :
  forall h line, fst (fst (HttpIO.handleLine h line)) = h.
Proof.
  intros h line. unfold HttpIO.handleLine.
  destruct (SerialIO.handleLine _ _) as [[sio' events] effects]. reflexivity.
Qed.

Lemma count_app :
  forall p a b, Bridge.count p (a ++ b) = Bridge.count p a + Bridge.count p b.
Proof.
  intros p a b. unfold Bridge.count. rewrite filter_app, length_app. reflexivity.
Qed.

Lemma Publish_sends_events_only :
  forall p consumers events,
    (forall ch ev, p (ESendEvent ch ev) = false) ->
    Bridge.count p (SerialIO.Publish consumers events) = 0.
Proof.
  intros p consumers events Hp. unfold SerialIO.Publish.
  induction events as [|ev events IH]; simpl; [reflexivity|].
  rewrite count_app, IH, Nat.add_0_r. clear IH.
  induction consumers as [|ch consumers IHc]; simpl; [reflexivity|].
  unfold Bridge.count in *. simpl. rewrite Hp. exact IHc.
Qed.

Lemma handleLine_effects :
  forall p h line,
    (forall ch ev, p (ESendEvent ch ev) = false) ->
    (forall lvl msg, p (ELog lvl msg) = false) ->
    Bridge.count p (snd (HttpIO.handleLine h line)) = 0.
Proof.
  intros p h line Hev Hlog. unfold HttpIO.handleLine, SerialIO.handleLine.
  destruct (Line.parse _) as [vals|].
  - destruct (SerialIO.Diff _ vals) as [sio' events]. simpl.
    apply Publish_sends_events_only, Hev.
  - simpl. unfold Bridge.count. simpl. rewrite Hlog. reflexivity.
Qed.

Lemma Publish_inert :
  forall consumers events, forallb inert (SerialIO.Publish consumers events) = true.
Proof.
  intros consumers events. unfold SerialIO.Publish.
  induction events as [|ev events IH]; simpl; [reflexivity|].
  rewrite forallb_app, IH, andb_true_r. clear IH.
  induction consumers as [|ch consumers IHc]; simpl; auto.
Qed.

Lemma handleLine_inert :
  forall h line, forallb inert (snd (HttpIO.handleLine h line)) = true.
Proof.
  intros h line. unfold HttpIO.handleLine, SerialIO.handleLine.
  destruct (Line.parse _) as [vals|].
  - destruct (SerialIO.Diff _ vals) as [sio' events]. simpl. apply Publish_inert.
  - reflexivity.
Qed.

(** Effects that start, send and close nothing are only recorded. *)
Lemma perform_inert :
  forall effs w,
    forallb inert effs = true ->
    Bridge.perform effs w = Bridge.with_hio (Bridge.hio w) effs w.
Proof.
  intros effs w H. unfold Bridge.perform.
  generalize (Bridge.with_hio (Bridge.hio w) effs w). revert H.
  induction effs as [|e effs IH]; intros H w'; [reflexivity|].
  simpl in H. apply andb_true_iff in H. destruct H as [He H].
  simpl. destruct e; try discriminate He; simpl; apply IH, H.
Qed.

(** The line branch of a controller loop, in one equation. *)
Lemma LoopReceivesLine_spec :
  forall w line,
    Bridge.do_LoopReceivesLine line w
    = match Bridge.loops w with
      | [] => w
      | _ :: _ =>
          Bridge.with_hio (Bridge.hio w) (snd (HttpIO.handleLine (Bridge.hio w) line)) w
      end.
Proof.
  intros w line. unfold Bridge.do_LoopReceivesLine.
  destruct (Bridge.loops w); [reflexivity|].
  pose proof (handleLine_keeps_receiver (Bridge.hio w) line) as Hk.
  pose proof (handleLine_inert (Bridge.hio w) line) as Hi.
  destruct (HttpIO.handleLine (Bridge.hio w) line) as [[h events] effs].
  simpl in Hk, Hi. subst h. simpl snd.
  rewrite (perform_inert _ _ Hi). destruct w; reflexivity.
Qed.

(** What [fire_due] computes: the timers not yet due stay, the others are
    counted, and the receiver is reset if one fired. *)
Lemma fire_due_spec :
  forall t ts h,
    Bridge.fire_due t ts h
    = (filter (fun due => negb (due <=? t)%Z) ts,
       (if existsb (fun due => (due <=? t)%Z) ts then HttpIO.delayed_reset h else h),
       List.length (filter (fun due => (due <=? t)%Z) ts)).
Proof.
  intros t ts. induction ts as [|due ts IH]; intro h; simpl; [reflexivity|].
  destruct (due <=? t)%Z; simpl; rewrite IH; [|reflexivity].
  destruct (existsb _ ts); reflexivity.
Qed.

Lemma fire_due_connected :
  forall t ts h,
    HttpIO.connected (snd (fst (Bridge.fire_due t ts h))) = HttpIO.connected h
    /\ HttpIO.conn (snd (fst (Bridge.fire_due t ts h))) = HttpIO.conn h.
Proof.
  intros t ts h. rewrite fire_due_spec. simpl.
  destruct (existsb _ ts); split; reflexivity.
Qed.


Lemma step_Calm :
  forall w ev, Calm w -> Calm (Bridge.step w ev).
Proof.
  intros w ev (Hc & Hs & Hp). unfold Bridge.step. rewrite Hp.
  destruct ev; unfold Calm.
  - cbn. auto.
  - unfold Bridge.do_Stop, HttpIO.Stop. rewrite Hc. cbn. auto.
  - cbn. auto.
  - unfold Bridge.do_ListenerRuns.
    destruct (existsb (Nat.eqb lineChannel) (Bridge.starting w)); cbn; auto.
  - unfold Bridge.do_RunFails, HttpIO.listener_exit, HttpIO.Stop.
    destruct (existsb (Nat.eqb lineChannel) (Bridge.listeners w)); [|auto]. rewrite Hc. cbn. auto.
  - unfold Bridge.do_LoopReceivesStop. rewrite Hs.
    destruct (Bridge.loops w); auto.
  - rewrite LoopReceivesLine_spec. destruct (Bridge.loops w); cbn; auto.
  - unfold Bridge.do_ConfigReloaded. destruct (Bridge.watchers w); cbn; auto.
  - unfold Bridge.do_Elapse.
    pose proof (fire_due_connected (Bridge.now w + Z.max 0 ms) (Bridge.timers w)
                  (Bridge.hio w)) as [Hk _].
    destruct (Bridge.fire_due _ _ _) as [[rest h] n]. simpl in *.
    rewrite Hk. auto.
Qed.

Lemma step_Untouched :
  forall w ev, Calm w -> Untouched w -> Untouched (Bridge.step w ev).
Proof.
  intros w ev (Hc & Hs & Hp) (Hn & Ht & Hq & Hr). unfold Bridge.step. rewrite Hp.
  destruct ev; unfold Untouched.
  - cbn -[Bridge.count]. rewrite !count_app, Hq, Hr. auto.
  - unfold Bridge.do_Stop, HttpIO.Stop. rewrite Hc. cbn -[Bridge.count].
    rewrite !count_app, Hq, Hr. auto.
  - cbn -[Bridge.count]. rewrite !count_app, Hq, Hr. auto.
  - unfold Bridge.do_ListenerRuns.
    destruct (existsb (Nat.eqb lineChannel) (Bridge.starting w)); cbn -[Bridge.count]; [|auto].
    rewrite !count_app, Hq, Hr. auto.
  - unfold Bridge.do_RunFails, HttpIO.listener_exit, HttpIO.Stop.
    destruct (existsb (Nat.eqb lineChannel) (Bridge.listeners w)); [|unfold Untouched; auto].
    rewrite Hc. cbn -[Bridge.count]. rewrite !count_app, Hq, Hr. auto.
  - unfold Bridge.do_LoopReceivesStop. rewrite Hs.
    destruct (Bridge.loops w); auto.
  - rewrite LoopReceivesLine_spec. destruct (Bridge.loops w); [auto|]. cbn -[Bridge.count].
    rewrite !count_app, Hq, Hr.
    rewrite (handleLine_effects Bridge.is_send_stop) by reflexivity.
    rewrite (handleLine_effects Bridge.is_conn_close) by reflexivity. auto.
  - unfold Bridge.do_ConfigReloaded. destruct (Bridge.watchers w); [auto|].
    cbn -[Bridge.count]. rewrite !count_app, Hq, Hr. auto.
  - unfold Bridge.do_Elapse.
    pose proof (fire_due_connected (Bridge.now w + Z.max 0 ms) (Bridge.timers w)
                  (Bridge.hio w)) as [_ Hk].
    destruct (Bridge.fire_due _ _ _) as [[rest h] n]. simpl in *.
    rewrite Hk. auto.
Qed.

Lemma run_cons :
  forall ev evs w, Bridge.run (ev :: evs) w = Bridge.run evs (Bridge.step w ev).
Proof. reflexivity. Qed.

Lemma run_app :
  forall evs evs' w, Bridge.run (evs ++ evs') w = Bridge.run evs' (Bridge.run evs w).
Proof. intros. unfold Bridge.run. apply fold_left_app. Qed.

Lemma run_snoc :
  forall evs ev w, Bridge.run (evs ++ [ev]) w = Bridge.step (Bridge.run evs w) ev.
Proof. intros. rewrite run_app. reflexivity. Qed.

Lemma run_Calm :
  forall evs w, Calm w -> Calm (Bridge.run evs w).
Proof.
  induction evs as [|ev evs IH]; intros w Hw; [exact Hw|].
  rewrite run_cons. apply IH, step_Calm, Hw.
Qed.

Lemma run_Untouched :
  forall evs w, Calm w -> Untouched w -> Untouched (Bridge.run evs w).
Proof.
  induction evs as [|ev evs IH]; intros w Hw Hu; [exact Hu|].
  rewrite run_cons. apply IH; [apply step_Calm | apply step_Untouched]; assumption.
Qed.

Lemma boot_Calm : forall d logger, Calm (Bridge.boot d logger).
Proof. intros. repeat split. Qed.

Lemma boot_Untouched : forall d logger, Untouched (Bridge.boot d logger).
Proof. intros. repeat split. Qed.

(** ** Lifecycle *)

Lemma close_without_handle_panics :
  forall h, HttpIO.conn h = None -> exists msg, HttpIO.close h = Panicked msg.
Proof. intros h Hn. unfold HttpIO.close. rewrite Hn. eauto. Qed.

(** [Stop] on a bridge that is not connected ends no goroutine. *)
Lemma Stop_ends_nothing :
  forall w,
    Calm w ->
    Bridge.starting (Bridge.step w Bridge.CallStop) = Bridge.starting w
    /\ Bridge.listeners (Bridge.step w Bridge.CallStop) = Bridge.listeners w
    /\ Bridge.loops (Bridge.step w Bridge.CallStop) = Bridge.loops w.
Proof.
  intros w (Hc & Hs & Hp).
  unfold Bridge.step, Bridge.do_Stop, HttpIO.Stop. rewrite Hp, Hc. cbn. auto.
Qed.

(** C2, as the code runs.  From [NewHttpIO], whatever the sequence of
    Start, Stop, listener failures and other events: [conn] stays nil,
    [conn.Close()] is never called and [close] never entered (zero
    teardowns, not one), and a call of [Stop] ends no listener and no
    loop: what [Start] started keeps running.  Nothing panics either. *)
Theorem Stop_never_tears_anything_down :
  forall (d : Deej) (logger : string) (evs : list Bridge.Event),
    let w := Bridge.run evs (Bridge.boot d logger) in
    Bridge.teardowns w = 0
    /\ HttpIO.conn (Bridge.hio w) = None
    /\ Bridge.count Bridge.is_conn_close (Bridge.trace w) = 0
    /\ Bridge.starting (Bridge.step w Bridge.CallStop) = Bridge.starting w
    /\ Bridge.listeners (Bridge.step w Bridge.CallStop) = Bridge.listeners w
    /\ Bridge.loops (Bridge.step w Bridge.CallStop) = Bridge.loops w
    /\ Bridge.panicked w = false.
Proof.
  intros d logger evs w.
  pose proof (run_Calm evs _ (boot_Calm d logger)) as Hcalm.
  destruct (run_Untouched evs _ (boot_Calm d logger) (boot_Untouched d logger))
    as (Hn & Ht & _ & Hr).
  fold w in Hcalm, Hn, Ht, Hr.
  destruct (Stop_ends_nothing w Hcalm) as (S1 & S2 & S3).
  destruct Hcalm as (_ & _ & Hp).
  repeat split; assumption.
Qed.

(** C9.  [connected] is false after [NewHttpIO] and after every run; no
    method writes true into it ([close] writes false); so [Stop] always
    takes its second branch, and nothing is ever sent on the stop
    channel. *)
Theorem connected_is_never_set :
  forall (d : Deej) (logger : string) (evs : list Bridge.Event),
    let w := Bridge.run evs (Bridge.boot d logger) in
    HttpIO.connected (fst (fst (HttpIO.NewHttpIO d logger (S (configReloadedChannel d)))))
    = false
    /\ HttpIO.connected (Bridge.hio w) = false
    /\ HttpIO.Stop (Bridge.hio w)
       = (Bridge.hio w, [ELog LvlDebug "Not currently connected, nothing to stop"])
    /\ Bridge.count Bridge.is_send_stop (Bridge.trace w) = 0
    /\ Bridge.stop_senders w = 0
    /\ (forall (h : HttpIO.t) (ch : chan) (line : string),
          HttpIO.connected (fst (fst (HttpIO.Start h ch))) = HttpIO.connected h
          /\ HttpIO.connected (fst (HttpIO.Stop h)) = HttpIO.connected h
          /\ HttpIO.connected (fst (fst (HttpIO.SubscribeToSliderMoveEvents h ch)))
             = HttpIO.connected h
          /\ HttpIO.connected (fst (fst (HttpIO.handleLine h line))) = HttpIO.connected h
          /\ HttpIO.connected (HttpIO.delayed_reset h) = HttpIO.connected h
          /\ match HttpIO.close h with
             | Returned (h', _) => HttpIO.connected h' = false
             | Panicked _ => True
             end).
Proof.
  intros d logger evs w.
  destruct (run_Calm evs _ (boot_Calm d logger)) as (Hc & Hs & _).
  destruct (run_Untouched evs _ (boot_Calm d logger) (boot_Untouched d logger))
    as (_ & _ & Hq & _).
  fold w in Hc, Hs, Hq.
  split; [reflexivity|]. split; [exact Hc|].
  split; [unfold HttpIO.Stop; rewrite Hc; reflexivity|].
  split; [exact Hq|]. split; [exact Hs|].
  intros h ch line. repeat split.
  - unfold HttpIO.Stop. destruct (HttpIO.connected h) eqn:E; simpl; congruence.
  - rewrite handleLine_keeps_receiver. reflexivity.
  - unfold HttpIO.close. destruct (HttpIO.conn h); [reflexivity | exact I].
Qed.

(** [Stop] after Start and Subscribe: the bridge is not connected, and no
    sender is left on the stop channel. *)
Lemma Stop_when_not_connected_only_logs_witness :
  HttpIO.connected
    (Bridge.hio (Bridge.run [Bridge.CallStart; Bridge.CallSubscribe]
                   (Bridge.boot sample_deej "deej"))) = false
  /\ Bridge.stop_senders
       (Bridge.run [Bridge.CallStart; Bridge.CallSubscribe; Bridge.CallStop]
          (Bridge.boot sample_deej "deej")) = 0.
Proof.
  assert (Hc : HttpIO.connected
                 (Bridge.hio (Bridge.run [Bridge.CallStart; Bridge.CallSubscribe]
                                (Bridge.boot sample_deej "deej"))) = false)
    by (vm_compute; reflexivity).
  assert (Hp : Bridge.panicked
                 (Bridge.run [Bridge.CallStart; Bridge.CallSubscribe]
                    (Bridge.boot sample_deej "deej")) = false)
    by (vm_compute; reflexivity).
  split; [exact Hc|].
  destruct (Stop_when_not_connected_only_logs _ Hc Hp) as (_ & _ & Hs & _).
  rewrite (run_snoc [Bridge.CallStart; Bridge.CallSubscribe] Bridge.CallStop), Hs.
  vm_compute. reflexivity.
Defined.

(** ** Reload *)













(** ** Lines *)

Lemma split_on_nonempty :
  forall sep s, Line.split_on sep s <> [].
Proof.
  intros sep s. destruct s as [|c s']; simpl; [discriminate|].
  destruct (Ascii.eqb c sep); [discriminate|].
  destruct (Line.split_on sep s'); discriminate.
Qed.

Lemma parse_fields_length :
  forall fs vals, Line.parse_fields fs = Some vals -> List.length vals = List.length fs.
Proof.
  induction fs as [|f fs IH]; simpl; intros vals H.
  - injection H as <-. reflexivity.
  - destruct (Line.parse_number f); [|discriminate].
    destruct (Line.parse_fields fs) as [vs|]; [|discriminate].
    injection H as <-. simpl. f_equal. apply IH. reflexivity.
Qed.

Lemma parse_nonempty :
  forall line vals, Line.parse line = Some vals -> vals <> [].
Proof.
  intros line vals H. unfold Line.parse in H.
  apply parse_fields_length in H.
  pose proof (split_on_nonempty Line.separator (Line.trim_terminator line)) as Hne.
  destruct vals; [|discriminate].
  destruct (Line.split_on _ _); [congruence | discriminate].
Qed.

(** [HttpIO.handleLine] on a well-formed line: every slider is reported,
    whatever the receiver's slider state, and that state is not written. *)
Lemma handleLine_resends_every_slider :
  forall h line vals,
    Line.parse (line ++ Line.CRLF)%string = Some vals ->
    HttpIO.handleLine h line
    = (h, SerialIO.all_changed 0 vals,
       SerialIO.Publish (HttpIO.sliderMoveConsumers h) (SerialIO.all_changed 0 vals)).
Proof.
  intros h line vals Hparse. unfold HttpIO.handleLine, SerialIO.handleLine.
  rewrite Hparse. unfold SerialIO.Diff.
  cbn [HttpIO.fresh_SerialIO SerialIO.lastKnownNumSliders
       SerialIO.sliderMoveConsumers SerialIO.deej SerialIO.currentSliderPercentValues].
  apply parse_nonempty in Hparse.
  destruct vals as [|v vals]; [congruence|].
  replace (Z.of_nat (List.length (v :: vals)) =? 0)%Z with false
    by (symmetry; apply Z.eqb_neq; simpl List.length; lia).
  reflexivity.
Qed.

Lemma changed_from_same :
  forall tol vals i,
    (0 <= tol)%Z -> SerialIO.changed_from tol i vals vals = [].
Proof.
  intros tol vals. induction vals as [|v vals IH]; intros i Htol; simpl; [reflexivity|].
  rewrite Z.sub_diag. simpl Z.abs.
  replace (tol <? 0)%Z with false by (symmetry; apply Z.ltb_ge; exact Htol).
  apply IH, Htol.
Qed.

(** The tracker the specification describes, kept from one line to the
    next, reports nothing for a repeated line. *)
Lemma SerialIO_repeated_line_is_silent :
  forall sio line,
    (0 <= tolerance (SerialIO.deej sio))%Z ->
    snd (fst (SerialIO.handleLine (fst (fst (SerialIO.handleLine sio line))) line)) = [].
Proof.
  intros sio line Htol. unfold SerialIO.handleLine.
  destruct (Line.parse line) as [vals|] eqn:Hparse.
  - unfold SerialIO.Diff. cbn -[Line.parse Z.eqb Z.of_nat].
    rewrite Z.eqb_refl. apply changed_from_same, Htol.
  - reflexivity.
Qed.

(** C3, as the code runs.  The same line handled twice by
    [HttpIO.handleLine]: the second call reports all three sliders again,
    and the receiver's recorded count and stored values are still those of
    [NewHttpIO] after the first. *)
Theorem repeated_line_resends_every_slider :
  snd (fst (HttpIO.handleLine sample_hio sample_line))
  = [SerialIO.event 0 100; SerialIO.event 1 50; SerialIO.event 2 0]
  /\ snd (fst (HttpIO.handleLine
                 (fst (fst (HttpIO.handleLine sample_hio sample_line))) sample_line))
     = [SerialIO.event 0 100; SerialIO.event 1 50; SerialIO.event 2 0]
  /\ HttpIO.lastKnownNumSliders (fst (fst (HttpIO.handleLine sample_hio sample_line)))
     = 0%Z
  /\ HttpIO.currentSliderPercentValues
       (fst (fst (HttpIO.handleLine sample_hio sample_line))) = [].
Proof.
  assert (Hparse : Line.parse (sample_line ++ Line.CRLF)%string = Some [100; 50; 0]%Z)
    by reflexivity.
  rewrite !(handleLine_resends_every_slider _ _ _ Hparse).
  repeat split.
Qed.

(** ** The line channel *)

Lemma track_app :
  forall os os' o,
    Pipeline.track o (os ++ os')
    = match Pipeline.track o os with
      | Some o' => Pipeline.track o' os'
      | None => None
      end.
Proof.
  induction os as [|ob os IH]; intros os' o; simpl; [reflexivity|].
  destruct ob as [line|line]; destruct o as [line'|]; try reflexivity.
  - apply IH.
  - destruct (String.eqb line line'); [apply IH | reflexivity].
Qed.

Lemma entered_app :
  forall os os', Pipeline.entered (os ++ os') = Pipeline.entered os ++ Pipeline.entered os'.
Proof.
  induction os as [|ob os IH]; intros os'; simpl; [reflexivity|].
  destruct ob; simpl; rewrite IH; reflexivity.
Qed.

Lemma step_in_step :
  forall s a, in_step s -> in_step (Pipeline.step s a).
Proof.
  intros s a [Ht He]. unfold in_step. destruct a as [raw|i|]; simpl.
  - auto.
  - destruct (nth_error (Pipeline.requests s) i) as [[|e rest]|]; auto.
    destruct e; simpl; auto.
    destruct (Pipeline.loop s) eqn:Hl; [|rewrite Hl; auto].
    destruct (Nat.eqb ch (Pipeline.lineChannel s)); simpl; [|rewrite Hl; auto].
    rewrite track_app, Ht, entered_app, He. simpl. auto.
  - destruct (Pipeline.loop s) eqn:Hl; [rewrite Hl; auto|].
    destruct (HttpIO.handleLine (Pipeline.hio s) line) as [[h events] effs]. simpl.
    rewrite track_app, Ht, entered_app, He. simpl.
    rewrite String.eqb_refl, app_nil_r. auto.
Qed.

Lemma run_in_step :
  forall acts s, in_step s -> in_step (Pipeline.run acts s).
Proof.
  induction acts as [|a acts IH]; intros s Hs; [exact Hs|].
  simpl. apply IH, step_in_step, Hs.
Qed.

(** C5.  Whatever the number of requests and however their goroutines and
    the controller loop interleave: no call of [handleLine] starts before
    the one before it returned, and the lines are handled in the order the
    channel handed them over. *)
Theorem controller_loop_handles_one_line_at_a_time :
  forall (h : HttpIO.t) (lineChannel : chan) (acts : list Pipeline.Action),
    let s := Pipeline.run acts (Pipeline.init h lineChannel) in
    Pipeline.no_overlap (Pipeline.observed s) = true
    /\ Pipeline.track None (Pipeline.observed s)
       = Some (Pipeline.open_call (Pipeline.loop s))
    /\ Pipeline.entered (Pipeline.observed s) = Pipeline.sent s.
Proof.
  intros h lineChannel acts s.
  assert (H : in_step s) by (apply run_in_step; split; reflexivity).
  destruct H as [Ht He]. unfold Pipeline.no_overlap. rewrite Ht. auto.
Qed.


(** * Further properties of http.go *)

(** ** What a step leaves alone *)

(** One step of the running bridge, field by field: the receiver's
    identity fields and its stored values are never written, the recorded
    count is kept or zeroed, the registry and the loops only grow. *)
Lemma step_frame :
  forall w ev,
    HttpIO.deej (Bridge.hio (Bridge.step w ev)) = HttpIO.deej (Bridge.hio w)
    /\ HttpIO.stopChannel (Bridge.hio (Bridge.step w ev)) = HttpIO.stopChannel (Bridge.hio w)
    /\ HttpIO.currentSliderPercentValues (Bridge.hio (Bridge.step w ev))
       = HttpIO.currentSliderPercentValues (Bridge.hio w)
    /\ (HttpIO.lastKnownNumSliders (Bridge.hio (Bridge.step w ev))
        = HttpIO.lastKnownNumSliders (Bridge.hio w)
        \/ HttpIO.lastKnownNumSliders (Bridge.hio (Bridge.step w ev)) = 0%Z)
    /\ HttpIO.sliderMoveConsumers (Bridge.hio (Bridge.step w ev))
       = HttpIO.sliderMoveConsumers (Bridge.hio w)
         ++ (if negb (Bridge.panicked w) && is_subscribe ev
             then [Bridge.next_chan w] else [])
    /\ Bridge.loops (Bridge.step w ev)
       = Bridge.loops w
         ++ (if negb (Bridge.panicked w) && is_start ev
             then [Bridge.next_chan w] else [])
    /\ Bridge.next_chan (Bridge.step w ev)
       = Bridge.next_chan w
         + (if negb (Bridge.panicked w) && (is_start ev || is_subscribe ev)
            then 1 else 0).
Proof.
  intros w ev. unfold Bridge.step.
  destruct (Bridge.panicked w) eqn:Hp; simpl negb; simpl andb.
  { rewrite !app_nil_r, Nat.add_0_r. repeat split; auto. }
  destruct ev; simpl is_subscribe; simpl is_start; simpl orb;
    rewrite ?app_nil_r, ?Nat.add_0_r.
  - cbn. rewrite Nat.add_1_r. repeat split; auto.
  - unfold Bridge.do_Stop, HttpIO.Stop.
    destruct (HttpIO.connected (Bridge.hio w)); cbn; repeat split; auto.
  - cbn. rewrite Nat.add_1_r. repeat split; auto.
  - unfold Bridge.do_ListenerRuns.
    destruct (existsb (Nat.eqb lineChannel) (Bridge.starting w)); cbn;
      repeat split; auto.
  - unfold Bridge.do_RunFails, HttpIO.listener_exit, HttpIO.Stop.
    destruct (existsb (Nat.eqb lineChannel) (Bridge.listeners w));
      [|repeat split; auto].
    destruct (HttpIO.connected (Bridge.hio w)); cbn; repeat split; auto.
  - unfold Bridge.do_LoopReceivesStop, HttpIO.close.
    destruct (Bridge.loops w) eqn:Hl; [rewrite Hl; repeat split; auto|].
    destruct (Bridge.stop_senders w); [rewrite Hl; repeat split; auto|].
    destruct (HttpIO.conn (Bridge.hio w)) as [c0|];
      [destruct (close_error c0)|]; cbn; rewrite ?Hl; repeat split; auto.
  - rewrite LoopReceivesLine_spec.
    destruct (Bridge.loops w) eqn:Hl; cbn; rewrite ?Hl; repeat split; auto.
  - unfold Bridge.do_ConfigReloaded.
    destruct (Bridge.watchers w); cbn; repeat split; auto.
  - unfold Bridge.do_Elapse. rewrite fire_due_spec. cbn.
    destruct (existsb _ (Bridge.timers w)); cbn; repeat split; auto.
Qed.

Lemma run_panicked :
  forall evs w, Bridge.panicked w = true -> Bridge.run evs w = w.
Proof.
  induction evs as [|ev evs IH]; intros w Hp; [reflexivity|].
  rewrite run_cons. unfold Bridge.step at 1. rewrite Hp. apply IH, Hp.
Qed.

(** ** The subscriber registry (http.go 106-111) *)

(** X1.  The registry only grows, at its end: in every run from every
    state of the bridge, the subscribers registered before are still
    there, at the same indices, and at most one is added per call of
    [SubscribeToSliderMoveEvents]. *)
Theorem registry_is_append_only :
  forall (w : Bridge.World) (evs : list Bridge.Event),
    exists added,
      HttpIO.sliderMoveConsumers (Bridge.hio (Bridge.run evs w))
      = HttpIO.sliderMoveConsumers (Bridge.hio w) ++ added
      /\ List.length added <= List.length (filter is_subscribe evs)
      /\ (forall i ch,
            nth_error (HttpIO.sliderMoveConsumers (Bridge.hio w)) i = Some ch ->
            nth_error (HttpIO.sliderMoveConsumers (Bridge.hio (Bridge.run evs w))) i
            = Some ch).
Proof.
  intros w evs.
  assert (H : exists added,
             HttpIO.sliderMoveConsumers (Bridge.hio (Bridge.run evs w))
             = HttpIO.sliderMoveConsumers (Bridge.hio w) ++ added
             /\ List.length added <= List.length (filter is_subscribe evs)).
  { revert w. induction evs as [|ev evs IH]; intro w.
    - exists []. rewrite app_nil_r. auto.
    - rewrite run_cons. destruct (IH (Bridge.step w ev)) as (added & Heq & Hlen).
      destruct (step_frame w ev) as (_ & _ & _ & _ & Hc & _).
      rewrite Hc, <- app_assoc in Heq. eexists. split; [exact Heq|].
      rewrite length_app. simpl filter.
      destruct (Bridge.panicked w); destruct ev; simpl; lia. }
  destruct H as (added & Heq & Hlen). exists added.
  split; [exact Heq|]. split; [exact Hlen|].
  intros i ch Hi. rewrite Heq. rewrite nth_error_app1; [exact Hi|].
  apply nth_error_Some. congruence.
Qed.

Lemma step_channels_fresh :
  forall w ev, channels_fresh w -> channels_fresh (Bridge.step w ev).
Proof.
  intros w ev (Hstop & Hall & Hnd).
  destruct (step_frame w ev) as (_ & Hs & _ & _ & Hc & Hl & Hn).
  unfold channels_fresh. rewrite Hs, Hc, Hl, Hn.
  assert (Hnew : ~ In (Bridge.next_chan w)
                   (HttpIO.sliderMoveConsumers (Bridge.hio w) ++ Bridge.loops w)).
  { intro Hin. rewrite Forall_forall in Hall. specialize (Hall _ Hin). lia. }
  assert (Hwide : Forall (fun c => HttpIO.stopChannel (Bridge.hio w) < c
                                   < Bridge.next_chan w + 1)
                    (HttpIO.sliderMoveConsumers (Bridge.hio w) ++ Bridge.loops w)).
  { eapply Forall_impl; [|exact Hall]. simpl. intros c Hc'. lia. }
  destruct (Bridge.panicked w); simpl negb; simpl andb.
  { rewrite !app_nil_r, Nat.add_0_r. auto. }
  destruct ev; simpl is_start; simpl is_subscribe; simpl orb;
    rewrite ?app_nil_r, ?Nat.add_0_r; auto.
  - (* Start: a new line channel *)
    rewrite app_assoc. split; [lia|]. split.
    + apply Forall_app. split; [exact Hwide|]. constructor; [lia|constructor].
    + apply (NoDup_Add (Add_app _ _ [])). rewrite app_nil_r. auto.
  - (* Subscribe: a new consumer *)
    rewrite <- app_assoc. simpl app. split; [lia|]. split.
    + apply Forall_app in Hwide. destruct Hwide as [Hw1 Hw2].
      apply Forall_app. split; [exact Hw1|]. constructor; [lia|exact Hw2].
    + apply (NoDup_Add (Add_app _ _ _)). auto.
Qed.

Lemma run_channels_fresh :
  forall evs w, channels_fresh w -> channels_fresh (Bridge.run evs w).
Proof.
  induction evs as [|ev evs IH]; intros w Hw; [exact Hw|].
  rewrite run_cons. apply IH, step_channels_fresh, Hw.
Qed.

Lemma boot_channels_fresh :
  forall d logger, channels_fresh (Bridge.boot d logger).
Proof.
  intros d logger. unfold channels_fresh. simpl. repeat split; auto; constructor.
Qed.

(** While nothing panics every Subscribe adds a consumer and every Start a
    loop. *)
Lemma run_counts :
  forall evs w,
    Calm w ->
    List.length (HttpIO.sliderMoveConsumers (Bridge.hio (Bridge.run evs w)))
    = List.length (HttpIO.sliderMoveConsumers (Bridge.hio w))
      + List.length (filter is_subscribe evs)
    /\ List.length (Bridge.loops (Bridge.run evs w))
       = List.length (Bridge.loops w) + List.length (filter is_start evs).
Proof.
  induction evs as [|ev evs IH]; intros w Hw.
  - simpl. split; lia.
  - rewrite run_cons. destruct (IH _ (step_Calm w ev Hw)) as [I1 I2].
    destruct (step_frame w ev) as (_ & _ & _ & _ & Hc & Hl & _).
    destruct Hw as (_ & _ & Hp). rewrite Hp in Hc, Hl.
    rewrite I1, I2, Hc, Hl, !length_app. simpl filter.
    destruct ev; simpl; split; lia.
Qed.

Lemma In_stop_fresh :
  forall w, channels_fresh w ->
    ~ In (HttpIO.stopChannel (Bridge.hio w))
         (HttpIO.sliderMoveConsumers (Bridge.hio w) ++ Bridge.loops w).
Proof.
  intros w (_ & Hall & _) Hin. rewrite Forall_forall in Hall.
  specialize (Hall _ Hin). lia.
Qed.

(** X2.  From [NewHttpIO] on, the registry holds one channel per call of
    [SubscribeToSliderMoveEvents]; these channels are pairwise different,
    and none of them is the stop channel or the line channel of a
    controller loop. *)
Theorem every_subscriber_has_its_own_channel :
  forall (d : Deej) (logger : string) (evs : list Bridge.Event),
    let w := Bridge.run evs (Bridge.boot d logger) in
    let consumers := HttpIO.sliderMoveConsumers (Bridge.hio w) in
    List.length consumers = List.length (filter is_subscribe evs)
    /\ NoDup consumers
    /\ ~ In (HttpIO.stopChannel (Bridge.hio w)) consumers
    /\ (forall ch, In ch consumers -> ~ In ch (Bridge.loops w)).
Proof.
  intros d logger evs w consumers.
  pose proof (run_channels_fresh evs _ (boot_channels_fresh d logger)) as Hf.
  pose proof (In_stop_fresh _ Hf) as Hstop.
  destruct (run_counts evs _ (boot_Calm d logger)) as [Hc _].
  destruct Hf as (_ & _ & Hnd). fold w in Hnd, Hstop, Hc.
  fold consumers in Hnd, Hstop, Hc.
  split; [exact Hc|]. split; [exact (NoDup_app_remove_r _ _ Hnd)|].
  split; [intro Hin; apply Hstop, in_or_app; auto|].
  intros ch Hin Hin'.
  apply NoDup_app_remove_l in Hnd as Hnd'.
  clear - Hnd Hin Hin'.
  induction consumers as [|c cs IH]; [contradiction|].
  simpl in Hnd. inversion Hnd as [|? ? Hnotin Hnd0]; subst.
  destruct Hin as [->|Hin]; [apply Hnotin, in_or_app; auto | auto].
Qed.

(** ** Start (http.go 57-92) *)

Lemma remove_first_length :
  forall (ch : chan) (l : list chan),
    existsb (Nat.eqb ch) l = true ->
    S (@List.length chan (Bridge.remove_first ch l)) = @List.length chan l.
Proof.
  intros ch l. induction l as [|x l IH]; simpl; [discriminate|].
  rewrite (Nat.eqb_sym ch x). destruct (Nat.eqb x ch); simpl; [reflexivity|].
  intro H. rewrite IH; [reflexivity | exact H].
Qed.





(** ** The slider state of the receiver (http.go 24-25, 127, 144-154) *)

(** X4.  No run writes the receiver's stored percentages, and the only
    write to its recorded slider count is the reset's zero: lines leave
    both alone.  From [NewHttpIO] on the count is zero and the stored
    values are empty, whatever lines were handled. *)
Theorem slider_state_is_never_written :
  forall (d : Deej) (logger : string) (w : Bridge.World) (evs : list Bridge.Event),
    HttpIO.currentSliderPercentValues (Bridge.hio (Bridge.run evs w))
    = HttpIO.currentSliderPercentValues (Bridge.hio w)
    /\ (HttpIO.lastKnownNumSliders (Bridge.hio (Bridge.run evs w))
        = HttpIO.lastKnownNumSliders (Bridge.hio w)
        \/ HttpIO.lastKnownNumSliders (Bridge.hio (Bridge.run evs w)) = 0%Z)
    /\ HttpIO.lastKnownNumSliders (Bridge.hio (Bridge.run evs (Bridge.boot d logger)))
       = 0%Z
    /\ HttpIO.currentSliderPercentValues
         (Bridge.hio (Bridge.run evs (Bridge.boot d logger))) = [].
Proof.
  intros d logger w evs.
  assert (H : forall w,
             HttpIO.currentSliderPercentValues (Bridge.hio (Bridge.run evs w))
             = HttpIO.currentSliderPercentValues (Bridge.hio w)
             /\ (HttpIO.lastKnownNumSliders (Bridge.hio (Bridge.run evs w))
                 = HttpIO.lastKnownNumSliders (Bridge.hio w)
                 \/ HttpIO.lastKnownNumSliders (Bridge.hio (Bridge.run evs w)) = 0%Z)).
  { induction evs as [|ev evs IH]; intro w0; [auto|].
    rewrite run_cons. destruct (IH (Bridge.step w0 ev)) as [Hv Hn].
    destruct (step_frame w0 ev) as (_ & _ & Hv' & Hn' & _).
    split; [congruence|].
    destruct Hn as [Hn|Hn]; [|auto]. destruct Hn' as [Hn'|Hn']; [left|right]; congruence. }
  destruct (H w) as [Hv Hn]. destruct (H (Bridge.boot d logger)) as [Hv0 Hn0].
  split; [exact Hv|]. split; [exact Hn|]. split; [|exact Hv0].
  destruct Hn0 as [Hn0|Hn0]; [rewrite Hn0; reflexivity | exact Hn0].
Qed.

(** X5.  [handleLine] does not read the receiver's slider state: with
    any recorded count and any stored values the same line yields the same
    events and the same sends, and the receiver comes back as it was. *)
Theorem handleLine_ignores_the_recorded_slider_state :
  forall (h : HttpIO.t) (n : Z) (vals : list Z) (line : string),
    HttpIO.handleLine (with_slider_state n vals h) line
    = (with_slider_state n vals h,
       snd (fst (HttpIO.handleLine h line)),
       snd (HttpIO.handleLine h line)).
Proof.
  intros h n vals line. unfold HttpIO.handleLine.
  change (HttpIO.fresh_SerialIO (with_slider_state n vals h))
    with (HttpIO.fresh_SerialIO h).
  destruct (SerialIO.handleLine _ _) as [[sio' events] effects]. reflexivity.
Qed.

(** ** The stop path (http.go 83-84, 95-102, 133-142) *)

(** X6.  [close] on a receiver that holds a handle: the handle's [Close]
    is called once, whether it fails or not the receiver ends up with no
    handle and not connected, its other fields as they were; and [close]
    is not safe to repeat: called again it panics. *)
Theorem close_releases_the_handle_and_cannot_be_repeated :
  forall (h : HttpIO.t) (c : Conn),
    HttpIO.conn h = Some c ->
    exists h' logged,
      HttpIO.close h = Returned (h', [EConnClose c; logged])
      /\ Bridge.is_conn_close logged = false
      /\ HttpIO.conn h' = None
      /\ HttpIO.connected h' = false
      /\ HttpIO.lastKnownNumSliders h' = HttpIO.lastKnownNumSliders h
      /\ HttpIO.currentSliderPercentValues h' = HttpIO.currentSliderPercentValues h
      /\ HttpIO.sliderMoveConsumers h' = HttpIO.sliderMoveConsumers h
      /\ HttpIO.stopChannel h' = HttpIO.stopChannel h
      /\ HttpIO.deej h' = HttpIO.deej h
      /\ HttpIO.logger h' = HttpIO.logger h
      /\ exists msg, HttpIO.close h' = Panicked msg.
Proof.
  intros h c Hc. unfold HttpIO.close. rewrite Hc.
  eexists. eexists. split; [reflexivity|].
  split; [destruct (close_error c); reflexivity|].
  repeat split. simpl. eauto.
Qed.

Lemma close_releases_the_handle_and_cannot_be_repeated_witness :
  HttpIO.conn (Bridge.hio sample_connected_world) = Some sample_conn
  /\ exists h' logged,
       HttpIO.close (Bridge.hio sample_connected_world)
       = Returned (h', [EConnClose sample_conn; logged])
       /\ HttpIO.conn h' = None.
Proof.
  split; [reflexivity|].
  destruct (close_releases_the_handle_and_cannot_be_repeated
              (Bridge.hio sample_connected_world) sample_conn eq_refl)
    as (h' & logged & Heq & _ & Hn & _).
  exists h', logged. split; [exact Heq | exact Hn].
Defined.

Lemma step_teardowns :
  forall w ev, Calm w -> Bridge.teardowns (Bridge.step w ev) = Bridge.teardowns w.
Proof.
  intros w ev (Hc & Hs & Hp). unfold Bridge.step. rewrite Hp.
  destruct ev.
  - reflexivity.
  - unfold Bridge.do_Stop, HttpIO.Stop. rewrite Hc. reflexivity.
  - reflexivity.
  - unfold Bridge.do_ListenerRuns.
    destruct (existsb (Nat.eqb lineChannel) (Bridge.starting w)); reflexivity.
  - unfold Bridge.do_RunFails, HttpIO.listener_exit, HttpIO.Stop.
    destruct (existsb (Nat.eqb lineChannel) (Bridge.listeners w)); [|reflexivity].
    rewrite Hc. reflexivity.
  - unfold Bridge.do_LoopReceivesStop. rewrite Hs. destruct (Bridge.loops w); reflexivity.
  - rewrite LoopReceivesLine_spec. destruct (Bridge.loops w); reflexivity.
  - unfold Bridge.do_ConfigReloaded. destruct (Bridge.watchers w); reflexivity.
  - unfold Bridge.do_Elapse.
    destruct (Bridge.fire_due _ (Bridge.timers w) (Bridge.hio w)) as [[rest h'] n].
    reflexivity.
Qed.

Lemma run_teardowns :
  forall evs w, Calm w -> Bridge.teardowns (Bridge.run evs w) = Bridge.teardowns w.
Proof.
  induction evs as [|ev evs IH]; intros w Hw; [reflexivity|].
  rewrite run_cons, (IH _ (step_Calm w ev Hw)). apply step_teardowns, Hw.
Qed.

(** [Stop] on a connected bridge: the receiver is not written, the caller
    waits on the stop channel. *)
Lemma Stop_connected_spec :
  forall w,
    Bridge.panicked w = false ->
    HttpIO.connected (Bridge.hio w) = true ->
    Bridge.hio (Bridge.step w Bridge.CallStop) = Bridge.hio w
    /\ Bridge.stop_senders (Bridge.step w Bridge.CallStop) = S (Bridge.stop_senders w)
    /\ Bridge.teardowns (Bridge.step w Bridge.CallStop) = Bridge.teardowns w
    /\ Bridge.loops (Bridge.step w Bridge.CallStop) = Bridge.loops w
    /\ Bridge.panicked (Bridge.step w Bridge.CallStop) = false.
Proof.
  intros w Hp Hc. unfold Bridge.step, Bridge.do_Stop, HttpIO.Stop.
  rewrite Hp, Hc. cbn. auto.
Qed.

(** The loop takes a stop signal while the receiver holds a handle. *)
Lemma LoopReceivesStop_closes :
  forall w waiting c,
    Bridge.panicked w = false ->
    Bridge.loops w <> [] ->
    Bridge.stop_senders w = S waiting ->
    HttpIO.conn (Bridge.hio w) = Some c ->
    Bridge.hio (Bridge.step w Bridge.LoopReceivesStop)
    = HttpIO.set_connected false (HttpIO.set_conn None (Bridge.hio w))
    /\ Bridge.stop_senders (Bridge.step w Bridge.LoopReceivesStop) = waiting
    /\ Bridge.teardowns (Bridge.step w Bridge.LoopReceivesStop) = S (Bridge.teardowns w)
    /\ Bridge.loops (Bridge.step w Bridge.LoopReceivesStop) = Bridge.loops w
    /\ Bridge.panicked (Bridge.step w Bridge.LoopReceivesStop) = false.
Proof.
  intros w waiting c Hp Hl Hs Hn.
  unfold Bridge.step, Bridge.do_LoopReceivesStop, HttpIO.close.
  rewrite Hp, Hs, Hn.
  destruct (Bridge.loops w) eqn:E; [congruence|].
  destruct (close_error c); cbn; rewrite ?E, ?Hp; auto.
Qed.

(** The loop takes a stop signal while the receiver holds no handle. *)
Lemma LoopReceivesStop_panics :
  forall w waiting,
    Bridge.panicked w = false ->
    Bridge.loops w <> [] ->
    Bridge.stop_senders w = S waiting ->
    HttpIO.conn (Bridge.hio w) = None ->
    Bridge.panicked (Bridge.step w Bridge.LoopReceivesStop) = true.
Proof.
  intros w waiting Hp Hl Hs Hn.
  unfold Bridge.step, Bridge.do_LoopReceivesStop, HttpIO.close.
  rewrite Hp, Hs, Hn.
  destruct (Bridge.loops w); [congruence | reflexivity].
Qed.

(** X7.  The stop path, on a bridge that is connected, holds a handle, has
    a controller loop running and nobody waiting on the stop channel (a
    state no run from [NewHttpIO] reaches).  [Stop] changes nothing in the
    receiver and leaves its caller waiting on the stop channel.  If the
    loop takes that signal next, the handle is closed, once, and from the
    state reached nothing is closed again and nothing panics, whatever
    follows.  But two calls of [Stop] before the loop receives end in a
    panic: the loop calls [close] for each signal, the second time on a
    nil [conn]. *)
Theorem Stop_on_a_connected_bridge_tears_down_once :
  forall (w : Bridge.World) (c : Conn) (evs : list Bridge.Event),
    HttpIO.connected (Bridge.hio w) = true ->
    HttpIO.conn (Bridge.hio w) = Some c ->
    Bridge.panicked w = false ->
    Bridge.stop_senders w = 0 ->
    Bridge.loops w <> [] ->
    let w1 := Bridge.step w Bridge.CallStop in
    let w2 := Bridge.step w1 Bridge.LoopReceivesStop in
    Bridge.hio w1 = Bridge.hio w
    /\ Bridge.stop_senders w1 = 1
    /\ Bridge.teardowns w1 = Bridge.teardowns w
    /\ Bridge.teardowns w2 = Bridge.teardowns w + 1
    /\ Bridge.stop_senders w2 = 0
    /\ HttpIO.connected (Bridge.hio w2) = false
    /\ HttpIO.conn (Bridge.hio w2) = None
    /\ Bridge.teardowns (Bridge.run evs w2) = Bridge.teardowns w + 1
    /\ Bridge.panicked (Bridge.run evs w2) = false
    /\ Bridge.panicked
         (Bridge.run [Bridge.CallStop; Bridge.CallStop;
                      Bridge.LoopReceivesStop; Bridge.LoopReceivesStop] w) = true.
Proof.
  intros w c evs Hc Hn Hp Hs Hl w1 w2.
  destruct (Stop_connected_spec w Hp Hc) as (A1 & A2 & A3 & A4 & A5).
  fold w1 in A1, A2, A3, A4, A5.
  destruct (LoopReceivesStop_closes w1 0 c A5) as (B1 & B2 & B3 & B4 & B5).
  { rewrite A4. exact Hl. }
  { rewrite A2, Hs. reflexivity. }
  { rewrite A1. exact Hn. }
  fold w2 in B1, B2, B3, B4, B5.
  assert (Hcalm : Calm w2).
  { repeat split; [rewrite B1; reflexivity | exact B2 | exact B5]. }
  split; [exact A1|]. split; [rewrite A2, Hs; reflexivity|]. split; [exact A3|].
  split; [rewrite B3, A3; lia|]. split; [exact B2|].
  split; [rewrite B1; reflexivity|]. split; [rewrite B1; reflexivity|].
  split; [rewrite (run_teardowns evs w2 Hcalm), B3, A3; lia|].
  split; [apply (run_Calm evs w2 Hcalm)|].
  (* two signals for one handle *)
  rewrite !run_cons. change (Bridge.run [] ?x) with x. fold w1.
  destruct (Stop_connected_spec w1 A5) as (C1 & C2 & _ & C4 & C5).
  { rewrite A1. exact Hc. }
  destruct (LoopReceivesStop_closes (Bridge.step w1 Bridge.CallStop) 1 c C5)
    as (D1 & D2 & _ & D4 & D5).
  { rewrite C4, A4. exact Hl. }
  { rewrite C2, A2, Hs. reflexivity. }
  { rewrite C1, A1. exact Hn. }
  apply (LoopReceivesStop_panics _ 0 D5).
  - rewrite D4, C4, A4. exact Hl.
  - exact D2.
  - rewrite D1. reflexivity.
Qed.

Lemma Stop_on_a_connected_bridge_tears_down_once_witness :
  HttpIO.connected (Bridge.hio sample_connected_world) = true
  /\ Bridge.loops sample_connected_world <> []
  /\ Bridge.teardowns
       (Bridge.run [Bridge.CallStop; Bridge.LoopReceivesStop]
          (Bridge.step (Bridge.step sample_connected_world Bridge.CallStop)
             Bridge.LoopReceivesStop))
     = Bridge.teardowns sample_connected_world + 1.
Proof.
  assert (Hc : HttpIO.connected (Bridge.hio sample_connected_world) = true)
    by (vm_compute; reflexivity).
  assert (Hn : HttpIO.conn (Bridge.hio sample_connected_world) = Some sample_conn)
    by (vm_compute; reflexivity).
  assert (Hp : Bridge.panicked sample_connected_world = false)
    by (vm_compute; reflexivity).
  assert (Hs : Bridge.stop_senders sample_connected_world = 0)
    by (vm_compute; reflexivity).
  assert (Hl : Bridge.loops sample_connected_world <> [])
    by (vm_compute; discriminate).
  split; [exact Hc|]. split; [exact Hl|].
  exact (proj1 (proj2 (proj2 (proj2 (proj2 (proj2 (proj2 (proj2
           (Stop_on_a_connected_bridge_tears_down_once
              sample_connected_world sample_conn
              [Bridge.CallStop; Bridge.LoopReceivesStop]
              Hc Hn Hp Hs Hl))))))))).
Defined.

(** ** Requests and the controller loop (http.go 60-68, 80-89) *)



















Lemma step_while_busy :
  forall s a line,
    Pipeline.loop s = Pipeline.InHandleLine line ->
    is_return a = false ->
    Pipeline.loop (Pipeline.step s a) = Pipeline.InHandleLine line
    /\ Pipeline.sent (Pipeline.step s a) = Pipeline.sent s
    /\ Pipeline.observed (Pipeline.step s a) = Pipeline.observed s
    /\ Pipeline.hio (Pipeline.step s a) = Pipeline.hio s.
Proof.
  intros [h ch rq lp st ob rsp] a line Hl Ha. cbn in Hl. subst lp.
  destruct a as [raw|i|]; [| |discriminate]; cbn.
  - auto.
  - destruct (nth_error rq i) as [[|e rest]|]; cbn; auto.
    destruct e; cbn; auto.
Qed.

(** X9.  While the controller loop is inside [handleLine] no request gets
    its command through: whatever the request goroutines do until the call
    returns, new requests included, the loop stays in that call and the
    commands handed over stay the same. *)
Theorem requests_wait_while_a_line_is_handled :
  forall (s : Pipeline.Sys) (line : string) (acts : list Pipeline.Action),
    Pipeline.loop s = Pipeline.InHandleLine line ->
    forallb (fun a => negb (is_return a)) acts = true ->
    Pipeline.loop (Pipeline.run acts s) = Pipeline.InHandleLine line
    /\ Pipeline.sent (Pipeline.run acts s) = Pipeline.sent s
    /\ Pipeline.observed (Pipeline.run acts s) = Pipeline.observed s
    /\ Pipeline.hio (Pipeline.run acts s) = Pipeline.hio s.
Proof.
  intros s line acts. revert s.
  induction acts as [|a acts IH]; intros s Hl Hacts; [auto|].
  simpl in Hacts. apply andb_true_iff in Hacts. destruct Hacts as [Ha Hacts].
  apply negb_true_iff in Ha.
  destruct (step_while_busy s a line Hl Ha) as (L & S & O & H).
  destruct (IH (Pipeline.step s a) L Hacts) as (L' & S' & O' & H').
  change (Pipeline.run (a :: acts) s) with (Pipeline.run acts (Pipeline.step s a)).
  repeat split; congruence.
Qed.

Lemma requests_wait_while_a_line_is_handled_witness :
  Pipeline.loop sample_busy_pipeline = Pipeline.InHandleLine "100|50|0"
  /\ Pipeline.sent
       (Pipeline.run
          [Pipeline.Advance 1; Pipeline.Advance 0; Pipeline.Advance 1;
           Pipeline.Arrive {| gin.data := "7"; gin.err := None |}; Pipeline.Advance 2]
          sample_busy_pipeline)
     = ["100|50|0"].
Proof.
  split; [reflexivity|].
  exact (proj1 (proj2
           (requests_wait_while_a_line_is_handled sample_busy_pipeline "100|50|0"
              [Pipeline.Advance 1; Pipeline.Advance 0; Pipeline.Advance 1;
               Pipeline.Arrive {| gin.data := "7"; gin.err := None |};
               Pipeline.Advance 2]
              eq_refl eq_refl))).
Defined.

(** ** A failing listener (http.go 74-76) *)

(** X10.  When [router.Run] returns an error the listener goroutine does
    what a call of [Stop] does, and ends: the receiver, the trace, the
    senders waiting on the stop channel and the teardowns are those a
    [Stop] at that moment gives; the controller loops are all still
    running, that listener is gone. *)
Theorem a_failing_listener_acts_as_Stop :
  forall (w : Bridge.World) (lineChannel : chan) (err : string),
    Bridge.panicked w = false ->
    In lineChannel (Bridge.listeners w) ->
    let failed := Bridge.step w (Bridge.RunFails lineChannel err) in
    let stopped := Bridge.step w Bridge.CallStop in
    Bridge.hio failed = Bridge.hio stopped
    /\ Bridge.hio failed = Bridge.hio w
    /\ Bridge.trace failed = Bridge.trace stopped
    /\ Bridge.stop_senders failed = Bridge.stop_senders stopped
    /\ Bridge.teardowns failed = Bridge.teardowns w
    /\ Bridge.loops failed = Bridge.loops w
    /\ S (List.length (Bridge.listeners failed)) = List.length (Bridge.listeners w)
    /\ Bridge.listeners failed = Bridge.remove_first lineChannel (Bridge.listeners w).
Proof.
  intros w lineChannel err Hp Hin.
  assert (E : existsb (Nat.eqb lineChannel) (Bridge.listeners w) = true).
  { apply existsb_exists. exists lineChannel. split; [exact Hin|].
    apply Nat.eqb_refl. }
  pose proof (remove_first_length _ _ E) as Hlen.
  unfold Bridge.step, Bridge.do_RunFails, Bridge.do_Stop,
    HttpIO.listener_exit, HttpIO.Stop.
  rewrite Hp, E.
  destruct (HttpIO.connected (Bridge.hio w)); cbn -[Bridge.remove_first];
    repeat split; exact Hlen.
Qed.

Lemma a_failing_listener_acts_as_Stop_witness :
  In 2 (Bridge.listeners
          (Bridge.run [Bridge.CallStart; Bridge.ListenerRuns 2]
             (Bridge.boot sample_deej "deej")))
  /\ Bridge.loops
       (Bridge.step
          (Bridge.run [Bridge.CallStart; Bridge.ListenerRuns 2]
             (Bridge.boot sample_deej "deej"))
          (Bridge.RunFails 2 "bind: address already in use"))
     = Bridge.loops (Bridge.run [Bridge.CallStart; Bridge.ListenerRuns 2]
                       (Bridge.boot sample_deej "deej")).
Proof.
  assert (Hin : In 2 (Bridge.listeners
                        (Bridge.run [Bridge.CallStart; Bridge.ListenerRuns 2]
                           (Bridge.boot sample_deej "deej"))))
    by (vm_compute; auto).
  assert (Hp : Bridge.panicked
                 (Bridge.run [Bridge.CallStart; Bridge.ListenerRuns 2]
                    (Bridge.boot sample_deej "deej")) = false)
    by (vm_compute; reflexivity).
  split; [exact Hin|].
  exact (proj1 (proj2 (proj2 (proj2 (proj2 (proj2
           (a_failing_listener_acts_as_Stop
              (Bridge.run [Bridge.CallStart; Bridge.ListenerRuns 2]
                 (Bridge.boot sample_deej "deej"))
              2 "bind: address already in use" Hp Hin))))))).
Defined.
